(** * Control Toolbox: the solver shell and the sensitivity interface

    A shallow embedding of

      - [ct/core/integration/sensitivity/Sensitivity.h]
        ([SensitivityApproximationSettings] and the abstract class
        [Sensitivity]), and
      - [ct/optcon/solver/NLOptConSolver.h] (the abstract class
        [NLOptConSolver] with its [solve] loop and its forwarding accessors).

    Conventions of the embedding.

      - A C++ call either returns, throws, or has undefined behaviour (a
        null [nlocBackend_] dereferenced): the type [outcome].
      - A pure virtual method is a field of a [Class] over the state of the
        concrete object; a method with a body is a [Definition] taken from
        that body.
      - [SCALAR] (double in practice) is an exact ordered field, so that the
        arithmetic of the discretization schemes can be stated; rounding is
        not modelled.
      - Matrices are MathComp's ['M[F]_(n, m)], [STATE_DIM] and [CONTROL_DIM]
        being the template parameters. *)

Set Warnings "-notation-overridden,-ambiguous-paths,-rewrite-rw".
From HB Require Import structures.
From Stdlib Require Import String.
From mathcomp Require Import boot order algebra.

Set Implicit Arguments.
Unset Strict Implicit.
Unset Printing Implicit Defensive.

Import Order.TTheory GRing.Theory Num.Theory.
Local Open Scope ring_scope.

(** ** Outcomes of a C++ call *)

(** The exceptions of the source ([std::runtime_error], with its message)
    and the error taxonomy of the specification, section 7. *)
Inductive exn : Type :=
| runtime_error (what : string)
| ConfigurationError
| UnsupportedApproximationError
| SingularMatrixError
| NotInitializedError
| BorrowedReferenceViolation.

Inductive outcome (A : Type) : Type :=
| Returns (a : A)
| Throws (e : exn)
| Undefined.

Arguments Returns {A} a.
Arguments Throws {A} e.
Arguments Undefined {A}.

Definition bind {A B : Type} (c : outcome A) (k : A -> outcome B) : outcome B :=
  match c with
  | Returns a => k a
  | Throws e => Throws e
  | Undefined => Undefined
  end.

Definition returned {A : Type} (c : outcome A) : bool :=
  if c is Returns _ then true else false.

Definition thrown {A : Type} (c : outcome A) : bool :=
  if c is Throws _ then true else false.

(** ** ct::core *)

Module Core.

(** [enum class APPROXIMATION], lines 18-24 of Sensitivity.h. *)
Inductive APPROXIMATION : Type :=
| FORWARD_EULER
| BACKWARD_EULER
| SYMPLECTIC_EULER
| TUSTIN
| MATRIX_EXPONENTIAL.

(** The enumerators' values: [FORWARD_EULER = 0] and then in order. *)
Definition APPROXIMATION_value (a : APPROXIMATION) : nat :=
  match a with
  | FORWARD_EULER => 0
  | BACKWARD_EULER => 1
  | SYMPLECTIC_EULER => 2
  | TUSTIN => 3
  | MATRIX_EXPONENTIAL => 4
  end.

Definition APPROXIMATION_eqb (a b : APPROXIMATION) : bool :=
  APPROXIMATION_value a == APPROXIMATION_value b.

(** Raw pointers: null, or the address of an object of the pointee type. *)
Inductive ptr : Type :=
| nullptr
| address (a : nat).

Section Sensitivity.

Variable SCALAR : Type.
Variables STATE_DIM CONTROL_DIM : nat.

(** [struct SensitivityApproximationSettings]: the constructor stores both
    arguments as they come. *)
Record SensitivityApproximationSettings : Type := mkSettings {
  dt_ : SCALAR;
  approximation_ : APPROXIMATION
}.

Definition SensitivityApproximationSettings_ctor
  (dt : SCALAR) (approx : APPROXIMATION) : SensitivityApproximationSettings :=
  {| dt_ := dt; approximation_ := approx |}.

Definition StateVector : Type := 'cV[SCALAR]_STATE_DIM.
Definition ControlVector : Type := 'cV[SCALAR]_CONTROL_DIM.

(** The pointees of [xSubstep_] and [uSubstep_]: a vector of (shared
    pointers to) arrays of vectors, one array per primary step. *)
Definition StateSubsteps : Type := seq (seq StateVector).
Definition ControlSubsteps : Type := seq (seq ControlVector).

(** The memory the two raw pointers point into.  It belongs to the caller;
    an address with no buffer is a dangling one. *)
Record memory : Type := mkMemory {
  xbuffers : nat -> option StateSubsteps;
  ubuffers : nat -> option ControlSubsteps
}.

(** An object of class [Sensitivity]: the two protected members, and the
    members of the concrete subclass ([derived]), the class being abstract. *)
Record Sensitivity (D : Type) : Type := mkSensitivity {
  xSubstep_ : ptr;
  uSubstep_ : ptr;
  derived : D
}.

Variable D : Type.

(** [Sensitivity() : xSubstep_(nullptr), uSubstep_(nullptr) {}] *)
Definition Sensitivity_ctor (d : D) : Sensitivity D :=
  {| xSubstep_ := nullptr; uSubstep_ := nullptr; derived := d |}.

(** A method runs on the memory and the object, and leaves both behind. *)
Definition method (A : Type) : Type :=
  memory -> Sensitivity D -> outcome (A * memory * Sensitivity D).

(** [clone() const { throw std::runtime_error(...); }] *)
Definition clone : method (Sensitivity D) :=
  fun _ _ => Throws (runtime_error "clone not implemented for Sensitivity").

(** [virtual void setApproximation(const APPROXIMATION& approx) {}] *)
Definition setApproximation (approx : APPROXIMATION) : method unit :=
  fun mem this => Returns (tt, mem, this).

(** [setSubstepTrajectoryReference]: two assignments. *)
Definition setSubstepTrajectoryReference (xSubstep uSubstep : ptr) : method unit :=
  fun mem this =>
    let this1 := {| xSubstep_ := xSubstep;
                    uSubstep_ := uSubstep_ this;
                    derived := derived this |} in
    let this2 := {| xSubstep_ := xSubstep_ this1;
                    uSubstep_ := uSubstep;
                    derived := derived this1 |} in
    Returns (tt, mem, this2).

End Sensitivity.

(** *** The discretization schemes (ApproximationStrategy) *)

Section Discretization.

Variable F : realFieldType.
Variables STATE_DIM CONTROL_DIM : nat.

Definition StateMatrix : Type := 'M[F]_STATE_DIM.
Definition StateControlMatrix : Type := 'M[F]_(STATE_DIM, CONTROL_DIM).

(** (A_c, B_c), and (A_d, B_d). *)
Definition ContinuousLinearSystem : Type := (StateMatrix * StateControlMatrix)%type.
Definition DiscreteLinearSystem : Type := (StateMatrix * StateControlMatrix)%type.

(** Modelled from the spec: the matrix exponential exp(M) of the
    MatrixExponential row of section 4.3, which no source file defines (it is
    the linear-algebra library's).  It is a parameter of the schemes, at every
    dimension since the augmented matrix is larger than A_c. *)
Variable mexp : forall k : nat, 'M[F]_k -> 'M[F]_k.

(** Modelled from the spec: SymplecticEuler's "structure-split update", for
    which section 4.3 gives no formula and section 9 says that none is fixed.
    It is a parameter of the schemes. *)
Variable structureSplit :
  StateMatrix -> StateControlMatrix -> F -> outcome DiscreteLinearSystem.

(** Modelled from the spec: ForwardEuler, A_d = I + dt A_c and B_d = dt B_c. *)
Definition forwardEuler (Ac : StateMatrix) (Bc : StateControlMatrix) (dt : F)
  : outcome DiscreteLinearSystem :=
  Returns (1%:M + dt *: Ac, dt *: Bc).

(** Modelled from the spec: BackwardEuler, A_d = (I - dt A_c)^-1 and
    B_d = A_d dt B_c, with SingularMatrixError when I - dt A_c has no
    inverse. *)
Definition backwardEuler (Ac : StateMatrix) (Bc : StateControlMatrix) (dt : F)
  : outcome DiscreteLinearSystem :=
  let M := 1%:M - dt *: Ac in
  if M \in unitmx then
    let Ad := invmx M in Returns (Ad, Ad *m (dt *: Bc))
  else Throws SingularMatrixError.

(** Modelled from the spec: Tustin, A_d = (I - dt/2 A_c)^-1 (I + dt/2 A_c) and
    B_d = (I - dt/2 A_c)^-1 dt B_c, with the failure mode of BackwardEuler. *)
Definition tustin (Ac : StateMatrix) (Bc : StateControlMatrix) (dt : F)
  : outcome DiscreteLinearSystem :=
  let M := 1%:M - (dt / 2%:R) *: Ac in
  if M \in unitmx then
    Returns (invmx M *m (1%:M + (dt / 2%:R) *: Ac), invmx M *m (dt *: Bc))
  else Throws SingularMatrixError.

(** Modelled from the spec: the augmented matrix [[A_c, B_c], [0, 0]] of the
    MatrixExponential row, whose exponential is [[A_d, B_d], [0, I]]. *)
Definition augmented (Ac : StateMatrix) (Bc : StateControlMatrix)
  : 'M[F]_(STATE_DIM + CONTROL_DIM) :=
  block_mx Ac Bc 0 0.

(** Modelled from the spec: MatrixExponential, A_d = exp(dt A_c) and
    B_d = A_c^-1 (A_d - I) B_c, or, when A_c is singular, the upper right
    block of the exponential of dt times the augmented matrix. *)
Definition matrixExponential (Ac : StateMatrix) (Bc : StateControlMatrix) (dt : F)
  : outcome DiscreteLinearSystem :=
  let Ad := mexp (dt *: Ac) in
  let Bd := if Ac \in unitmx then invmx Ac *m (Ad - 1%:M) *m Bc
            else ursubmx (mexp (dt *: augmented Ac Bc)) in
  Returns (Ad, Bd).

(** Modelled from the spec: the single discretization function that selects
    the scheme (section 9). *)
Definition discretize (scheme : APPROXIMATION)
  (Ac : StateMatrix) (Bc : StateControlMatrix) (dt : F)
  : outcome DiscreteLinearSystem :=
  match scheme with
  | FORWARD_EULER => forwardEuler Ac Bc dt
  | BACKWARD_EULER => backwardEuler Ac Bc dt
  | SYMPLECTIC_EULER => structureSplit Ac Bc dt
  | TUSTIN => tustin Ac Bc dt
  | MATRIX_EXPONENTIAL => matrixExponential Ac Bc dt
  end.

(** *** The engine behind [getAandB] (LinearizationEngine) *)

(** Modelled from the spec: the source of (A_c, B_c) that setLinearSystem
    injects (the class [LinearSystem] is declared elsewhere): the Jacobians
    at a state, a control and a time index. *)
Definition LinearSystem : Type :=
  StateVector F STATE_DIM -> ControlVector F CONTROL_DIM -> int ->
  ContinuousLinearSystem.

(** Modelled from the spec: what the concrete engine holds besides the two
    substep references of [Sensitivity]: the injected linear system
    (setLinearSystem), the step size (setTimeDiscretization) and the active
    scheme. *)
Record Approximation : Type := mkApproximation {
  linearSystem : LinearSystem;
  dt : F;
  approximation : APPROXIMATION
}.

Definition Engine : Type := Sensitivity Approximation.

(** Modelled from the spec: the check of one borrowed view at the boundary
    of a call (sections 3, 7 and 9).  A null reference has no view attached.
    An attached view of fewer than [numSteps] steps is a
    BorrowedReferenceViolation; a reference whose buffer is gone did not
    outlive the call, which has no defined outcome. *)
Definition checkView (T : Type) (buffers : nat -> option (seq T))
  (reference : ptr) (numSteps : nat) : outcome unit :=
  match reference with
  | nullptr => Returns tt
  | address a =>
      match buffers a with
      | Some view =>
          if (size view < numSteps)%N then Throws BorrowedReferenceViolation
          else Returns tt
      | None => Undefined
      end
  end.

(** Modelled from the spec: both views checked, the states' first. *)
Definition checkViews (numSteps : nat)
  (mem : memory F STATE_DIM CONTROL_DIM) (this : Sensitivity Approximation)
  : outcome unit :=
  bind (checkView (xbuffers mem) (xSubstep_ this) numSteps)
       (fun _ => checkView (ubuffers mem) (uSubstep_ this) numSteps).

(** Modelled from the spec: [getAandB], pure virtual in Sensitivity.h.  The
    borrowed views are checked at the boundary; then one (A, B) pair per
    call, the active scheme applied to the Jacobians at the setpoint; an
    error of the check or of the scheme is the call's outcome. *)
Definition getAandB
  (x : StateVector F STATE_DIM) (u : ControlVector F CONTROL_DIM)
  (x_next : StateVector F STATE_DIM) (k : int) (numSteps : nat)
  : method F STATE_DIM CONTROL_DIM Approximation DiscreteLinearSystem :=
  fun mem this =>
    bind (checkViews numSteps mem this)
         (fun _ =>
            let e := derived this in
            let: (Ac, Bc) := linearSystem e x u k in
            bind (discretize (approximation e) Ac Bc (dt e))
                 (fun AB => Returns (AB, mem, this))).

End Discretization.

(** *** The power series of the exponential *)

Section PowerSeries.

Variable F : realFieldType.

(** M^i, at every dimension (0 included). *)
Definition mxpow (k : nat) (M : 'M[F]_k) (i : nat) : 'M[F]_k :=
  iter i (mulmx M) 1%:M.

(** The first [j] terms of sum_i M^i / i!. *)
Definition expSeries (k : nat) (M : 'M[F]_k) (j : nat) : 'M[F]_k :=
  \sum_(i < j) (i`!%:R)^-1 *: mxpow M i.

(** What is known of the exponential: on a nilpotent matrix, where the power
    series is a finite sum, it is that sum. *)
Definition exp_on_nilpotent (mexp : forall k : nat, 'M[F]_k -> 'M[F]_k) : Prop :=
  forall (k : nat) (M : 'M[F]_k) (j : nat),
    mxpow M j = 0 -> mexp k M = expSeries M j.

(** A function with that property: the series cut at the dimension. *)
Definition mexp_nilpotent (k : nat) (M : 'M[F]_k) : 'M[F]_k := expSeries M k.

End PowerSeries.

Arguments mexp_nilpotent F k M : clear implicits.

End Core.

(** ** ct::optcon *)

Module Optcon.

(** The calls [solve] makes on the concrete solver, in program order, with
    what [finishSolve] returned. *)
Inductive call : Type :=
| CallPrepare
| CallFinishSolve (ret : bool).

(** One round of [solve]'s loop as calls: [prepare()] and then a
    [finishSolve()] that did not converge, or that did. *)
Definition idleRound : seq call := [:: CallPrepare; CallFinishSolve false].
Definition lastRound : seq call := [:: CallPrepare; CallFinishSolve true].

Section NLOptConSolver.

(** The template parameters [POLICY] and [SCALAR], and the types of the
    trajectories.  ([SETTINGS] is the argument of [configure], below.) *)
Variables Policy_t SCALAR : Type.
Variables StateTrajectory ControlTrajectory TimeArray : Type.

(** [NLOCBackendBase], of which the header uses the six read accessors (the
    class itself is declared elsewhere).  An accessor returns or throws. *)
Class NLOCBackendBase (B : Type) : Type := {
  backend_getSolution : B -> outcome Policy_t;
  backend_getStateTrajectory : B -> outcome StateTrajectory;
  backend_getControlTrajectory : B -> outcome ControlTrajectory;
  backend_getTimeArray : B -> outcome TimeArray;
  backend_getTimeHorizon : B -> outcome SCALAR;
  backend_getCost : B -> outcome SCALAR
}.

(** An object of class [NLOptConSolver]: the protected member
    [nlocBackend_] (a shared pointer, null until the subclass sets it) with
    the backend it points to, and the members of the concrete subclass. *)
Record NLOptConSolver (B S : Type) : Type := mkSolver {
  nlocBackend_ : option B;
  members : S
}.

Variables B S : Type.
Context {backend : NLOCBackendBase B}.

(** The pure virtual methods [prepare] and [finishSolve] of the concrete
    solver: they run on the whole object and return normally.  ([configure],
    [runIteration] and [setInitialGuess] are pure virtual too; [solve] does
    not call them.) *)
Class Derived : Type := {
  prepare : NLOptConSolver B S -> NLOptConSolver B S;
  finishSolve : NLOptConSolver B S -> bool * NLOptConSolver B S
}.

Context {derived : Derived}.

(** The loop of [solve], entered with the current value of [solved]:
<<
    while (!solved) { prepare(); solved = finishSolve(); }
    return solved;
>>
    [fuel] bounds the number of iterations run; [None] is a loop that has
    not left after [fuel] of them.  The result is the returned value, the
    object, and the calls made. *)
Fixpoint solve_loop (fuel : nat) (solved : bool) (this : NLOptConSolver B S)
  : option (bool * NLOptConSolver B S * seq call) :=
  if solved then Some (solved, this, [::])
  else
    match fuel with
    | 0%N => None
    | fuel'.+1 =>
        let this1 := prepare this in
        let: (solved', this2) := finishSolve this1 in
        match solve_loop fuel' solved' this2 with
        | Some (r, this3, calls) =>
            Some (r, this3, CallPrepare :: CallFinishSolve solved' :: calls)
        | None => None
        end
    end.

(** [bool solved = false; while ...; return solved;] *)
Definition solve (fuel : nat) (this : NLOptConSolver B S)
  : option (bool * NLOptConSolver B S * seq call) :=
  solve_loop fuel false this.

(** The same loop as a relation: [solve_returns this r this' calls] when
    [solve()] on [this] returns [r], leaving [this'], after [calls]. *)
Inductive loop_returns
  : bool -> NLOptConSolver B S -> bool -> NLOptConSolver B S -> seq call -> Prop :=
| loop_exit (this : NLOptConSolver B S) :
    loop_returns true this true this [::]
| loop_iterate (this this2 this3 : NLOptConSolver B S) (solved' r : bool)
               (calls : seq call) :
    finishSolve (prepare this) = (solved', this2) ->
    loop_returns solved' this2 r this3 calls ->
    loop_returns false this r this3 (CallPrepare :: CallFinishSolve solved' :: calls).

Definition solve_returns (this : NLOptConSolver B S) (r : bool)
  (this' : NLOptConSolver B S) (calls : seq call) : Prop :=
  loop_returns false this r this' calls.

(** [nlocBackend_->f()]: undefined on a null pointer. *)
Definition arrow {A : Type} (p : option B) (f : B -> outcome A) : outcome A :=
  if p is Some b then f b else Undefined.

(** The six read accessors, each [return nlocBackend_->get...();]. *)
Definition getSolution (this : NLOptConSolver B S) : outcome Policy_t :=
  arrow (nlocBackend_ this) backend_getSolution.

Definition getStateTrajectory (this : NLOptConSolver B S) : outcome StateTrajectory :=
  arrow (nlocBackend_ this) backend_getStateTrajectory.

Definition getControlTrajectory (this : NLOptConSolver B S)
  : outcome ControlTrajectory :=
  arrow (nlocBackend_ this) backend_getControlTrajectory.

Definition getTimeArray (this : NLOptConSolver B S) : outcome TimeArray :=
  arrow (nlocBackend_ this) backend_getTimeArray.

Definition getTimeHorizon (this : NLOptConSolver B S) : outcome SCALAR :=
  arrow (nlocBackend_ this) backend_getTimeHorizon.

Definition getCost (this : NLOptConSolver B S) : outcome SCALAR :=
  arrow (nlocBackend_ this) backend_getCost.

End NLOptConSolver.

(** *** configure *)

Section Configure.

Variable F : realFieldType.
Variables STATE_DIM CONTROL_DIM : nat.

(** Modelled from the spec: the settings object given to [configure] (the
    template parameter [SETTINGS]; no source file defines one): the step
    size and scheme of section 3, and the dimensions it was made for. *)
Record Settings : Type := mkSolverSettings {
  discretization : Core.SensitivityApproximationSettings F;
  state_dim : nat;
  control_dim : nat
}.

(** Modelled from the spec: the members of the concrete shell, the settings
    it has stored (none before the first successful [configure]). *)
Record Shell : Type := mkShell {
  settings_ : option Settings
}.

Variable B : Type.

(** Modelled from the spec: how the Backend takes the settings propagated
    to it. *)
Variable backend_configure : Settings -> B -> B.

(** Modelled from the spec: what [configure] refuses, "dt <= 0 or
    dimensions mismatch". *)
Definition refused (settings : Settings) : bool :=
  [|| Core.dt_ (discretization settings) <= 0,
      state_dim settings != STATE_DIM
    | control_dim settings != CONTROL_DIM].

(** Modelled from the spec: [configure], pure virtual in NLOptConSolver.h:
    "validates and stores settings, propagates to Backend; fails with a
    configuration error if dt <= 0 or dimensions mismatch". *)
Definition configure (settings : Settings) (this : NLOptConSolver B Shell)
  : outcome (NLOptConSolver B Shell) :=
  if refused settings then Throws ConfigurationError
  else if nlocBackend_ this is Some b then
    Returns {| nlocBackend_ := Some (backend_configure settings b);
               members := {| settings_ := Some settings |} |}
  else Undefined.

(** A caller that configures with each of [requests] in turn and carries on
    after a refusal (the object is as it was) ends with this object; a null
    backend ends the run. *)
Fixpoint configure_all (requests : seq Settings) (this : NLOptConSolver B Shell)
  : NLOptConSolver B Shell :=
  match requests with
  | [::] => this
  | settings :: requests' =>
      match configure settings this with
      | Returns this' => configure_all requests' this'
      | Throws _ => configure_all requests' this
      | Undefined => this
      end
  end.

(** The step size a caller can observe in the stored settings is positive. *)
Definition positive_dt (this : NLOptConSolver B Shell) : bool :=
  if settings_ (members this) is Some settings
  then 0 < Core.dt_ (discretization settings) else true.

(** A shell that has not been configured. *)
Definition unconfigured (b : option B) : NLOptConSolver B Shell :=
  {| nlocBackend_ := b; members := {| settings_ := None |} |}.

End Configure.

End Optcon.

(** ** Test stubs of the specification, section 8 *)

Module Stub.

Import Optcon.

(** A concrete solver that counts its iterations against a budget.  Its
    [finishSolve] can only answer with a [bool]: "budget exhausted" and "not
    converged yet" are both [false]. *)
Record Counters : Type := mkCounters {
  iterations : nat;
  budget : nat
}.

Definition StubSolver : Type := NLOptConSolver unit Counters.

Definition stub_prepare (this : StubSolver) : StubSolver := this.

Definition stub_finishSolve (converged : nat -> bool) (this : StubSolver)
  : bool * StubSolver :=
  let c := members this in
  let this' := {| nlocBackend_ := nlocBackend_ this;
                  members := {| iterations := (iterations c).+1;
                                budget := budget c |} |} in
  (if (budget c <= iterations c)%N then false else converged (iterations c), this').

(** The stub whose [finishSolve] answers [converged i] at its call number [i]
    (from 0), within the budget. *)
Definition stub (converged : nat -> bool) : Derived unit Counters :=
  {| prepare := stub_prepare; finishSolve := stub_finishSolve converged |}.

Definition neverConverges : Derived unit Counters := stub (fun _ => false).

(** A fresh stub solver with a budget of [b] iterations. *)
Definition fresh (b : nat) : StubSolver :=
  {| nlocBackend_ := None; members := {| iterations := 0; budget := b |} |}.

(** A backend that answers every accessor from its fields, iterated or not. *)
Record Iterate : Type := mkIterate {
  completedIterations : nat;
  cost : nat
}.

Definition readyBackend : NLOCBackendBase nat nat (seq nat) (seq nat) (seq nat) Iterate :=
  {| backend_getSolution := fun b => Returns (cost b);
     backend_getStateTrajectory := fun b => Returns [:: cost b];
     backend_getControlTrajectory := fun b => Returns [:: cost b];
     backend_getTimeArray := fun b => Returns [:: completedIterations b];
     backend_getTimeHorizon := fun b => Returns (completedIterations b);
     backend_getCost := fun b => Returns (cost b) |}.

(** A solver on that backend before any iteration has run. *)
Definition beforeAnyIteration : NLOptConSolver Iterate unit :=
  {| nlocBackend_ := Some {| completedIterations := 0; cost := 7 |};
     members := tt |}.

End Stub.

(** ** A worked case: the double integrator of section 8 *)

Module Example.

Import Core.

Section DoubleIntegrator.

Variable F : realFieldType.

(** A matrix from its rows. *)
Definition rows (n m : nat) (r : seq (seq F)) : 'M[F]_(n, m) :=
  \matrix_(i, j) nth 0 (nth [::] r i) j.

(** A_c = [[0,1],[0,0]], B_c = [[0],[1]] and dt = 0.1. *)
Definition Ac : 'M[F]_2 := rows 2 2 [:: [:: 0; 1]; [:: 0; 0]].
Definition Bc : 'M[F]_(2, 1) := rows 2 1 [:: [:: 0]; [:: 1]].
Definition dt : F := 10%:R^-1.

(** The values the specification gives: A_d = [[1,0.1],[0,1]] and
    B_d = [[0],[0.1]]. *)
Definition Ad_spec : 'M[F]_2 := rows 2 2 [:: [:: 1; dt]; [:: 0; 1]].
Definition Bd_spec : 'M[F]_(2, 1) := rows 2 1 [:: [:: 0]; [:: dt]].

(** B_d of the exact discretization: [[dt^2/2],[dt]] = [[0.005],[0.1]]. *)
Definition Bd_exact : 'M[F]_(2, 1) := rows 2 1 [:: [:: 200%:R^-1]; [:: dt]].

(** An engine on that system as its constructor leaves it (both substep
    references null), with [scheme] active. *)
Definition engine (scheme : APPROXIMATION) : Engine F 2 1 :=
  Sensitivity_ctor
    {| linearSystem := fun _ _ _ => (Ac, Bc);
       Core.dt := dt;
       approximation := scheme |}.

(** A memory with no buffer in it. *)
Definition noMemory : memory F 2 1 :=
  {| xbuffers := fun _ => None; ubuffers := fun _ => None |}.

End DoubleIntegrator.

End Example.

(** ** The run of [solve], round by round *)

Module Run.

Import Optcon.

Section Rounds.

Variables B S : Type.
Context {derived : Derived B S}.

(** One pass through the body of the loop, [prepare(); solved =
    finishSolve();]: the value it assigns to [solved], and the object it
    leaves. *)
Definition answer (this : NLOptConSolver B S) : bool :=
  (finishSolve (prepare this)).1.

Definition round (this : NLOptConSolver B S) : NLOptConSolver B S :=
  (finishSolve (prepare this)).2.

(** The object after [k] passes. *)
Definition after (k : nat) (this : NLOptConSolver B S) : NLOptConSolver B S :=
  iter k round this.

(** Pass number [k] (from 0) is the first whose [finishSolve] returns
    true. *)
Definition first_convergence (this : NLOptConSolver B S) (k : nat) : bool :=
  answer (after k this) && all (fun i => ~~ answer (after i this)) (iota 0 k).

(** The calls of [k] passes that did not converge and one that did. *)
Definition callsUntil (k : nat) : seq call :=
  flatten (nseq k idleRound) ++ lastRound.

End Rounds.

End Run.

(** ** [solve] over calls that may throw *)

Module Throwing.

Import Optcon.

Section WithExceptions.

Variables B S : Type.

(** [prepare] and [finishSolve] as C++ calls: each returns, throws, or is
    undefined. *)
Class DerivedExn : Type := {
  prepare_exn : NLOptConSolver B S -> outcome (NLOptConSolver B S);
  finishSolve_exn : NLOptConSolver B S -> outcome (bool * NLOptConSolver B S)
}.

Context {derived : DerivedExn}.

(** The body of the loop, [prepare(); solved = finishSolve();]: what
    [prepare] throws, [finishSolve] is not called after. *)
Definition pass (this : NLOptConSolver B S) : outcome (bool * NLOptConSolver B S) :=
  bind (prepare_exn this) finishSolve_exn.

(** The loop of [solve], which catches nothing: an exception of the body
    leaves the loop and [solve] with it.  [None] is a loop that has not been
    left after [fuel] passes. *)
Fixpoint solve_loop_exn (fuel : nat) (solved : bool) (this : NLOptConSolver B S)
  : option (outcome (bool * NLOptConSolver B S)) :=
  if solved then Some (Returns (solved, this))
  else
    match fuel with
    | 0%N => None
    | fuel'.+1 =>
        match pass this with
        | Returns (solved', this') => solve_loop_exn fuel' solved' this'
        | Throws e => Some (Throws e)
        | Undefined => Some Undefined
        end
    end.

Definition solve_exn (fuel : nat) (this : NLOptConSolver B S)
  : option (outcome (bool * NLOptConSolver B S)) :=
  solve_loop_exn fuel false this.

(** The object after [k] passes that all returned with [solved] false, if
    the first [k] passes did. *)
Fixpoint afterQuiet (k : nat) (this : NLOptConSolver B S)
  : option (NLOptConSolver B S) :=
  match k with
  | 0%N => Some this
  | k'.+1 =>
      match pass this with
      | Returns (false, this') => afterQuiet k' this'
      | _ => None
      end
  end.

(** A pass with this outcome leaves the loop: every outcome but a return
    with [solved] false. *)
Definition leaves (o : outcome (bool * NLOptConSolver B S)) : bool :=
  if o is Returns (false, _) then false else true.

End WithExceptions.

(** A concrete solver whose two methods always return. *)
Definition returning (B S : Type) (derived : Derived B S) : DerivedExn B S :=
  {| prepare_exn := fun this => Returns (prepare this);
     finishSolve_exn := fun this => Returns (finishSolve this) |}.

(** The stub of [Stub] with a [finishSolve] that throws at its call number
    [n] and answers false before. *)
Definition throwsAt (n : nat) : DerivedExn unit Stub.Counters :=
  {| prepare_exn := fun this => Returns this;
     finishSolve_exn := fun this =>
       if Stub.iterations (members this) == n
       then Throws (runtime_error "finishSolve failed")
       else Returns (Stub.stub_finishSolve (fun _ => false) this) |}.

End Throwing.

(** ** The forwarding mutators of the solver *)

Module Mutators.

Import Optcon.

Section Changes.

(** [SCALAR], [core::StateVector<STATE_DIM, SCALAR>] and the three pointer
    types of [OptConProblem_t]. *)
Variables SCALAR StateVector CostFunctionPtr_t DynamicsPtr_t LinearPtr_t : Type.

(** The five [change...] methods of [NLOCBackendBase] that the header
    calls (the class is declared elsewhere).  Each runs on the backend, and
    returns or throws. *)
Class NLOCBackendChanges (B : Type) : Type := {
  backend_changeTimeHorizon : SCALAR -> B -> outcome B;
  backend_changeInitialState : StateVector -> B -> outcome B;
  backend_changeCostFunction : CostFunctionPtr_t -> B -> outcome B;
  backend_changeNonlinearSystem : DynamicsPtr_t -> B -> outcome B;
  backend_changeLinearSystem : LinearPtr_t -> B -> outcome B
}.

Variables B S : Type.
Context {changes : NLOCBackendChanges B}.

(** [NLOptConSolver() {}]: [nlocBackend_] is default-constructed, a null
    shared pointer; [s] are the members of the subclass. *)
Definition NLOptConSolver_ctor (s : S) : NLOptConSolver B S :=
  {| nlocBackend_ := None; members := s |}.

(** [nlocBackend_->f(...)] for a method [f] that changes the backend:
    undefined on a null pointer; the object is otherwise as it was. *)
Definition arrow_change (f : B -> outcome B) (this : NLOptConSolver B S)
  : outcome (NLOptConSolver B S) :=
  if nlocBackend_ this is Some b then
    bind (f b) (fun b' => Returns {| nlocBackend_ := Some b';
                                     members := members this |})
  else Undefined.

(** The five mutators, each [{ nlocBackend_->change...(arg); }]. *)
Definition changeTimeHorizon (tf : SCALAR) (this : NLOptConSolver B S)
  : outcome (NLOptConSolver B S) :=
  arrow_change (backend_changeTimeHorizon tf) this.

Definition changeInitialState (x0 : StateVector) (this : NLOptConSolver B S)
  : outcome (NLOptConSolver B S) :=
  arrow_change (backend_changeInitialState x0) this.

Definition changeCostFunction (cf : CostFunctionPtr_t) (this : NLOptConSolver B S)
  : outcome (NLOptConSolver B S) :=
  arrow_change (backend_changeCostFunction cf) this.

Definition changeNonlinearSystem (dyn : DynamicsPtr_t) (this : NLOptConSolver B S)
  : outcome (NLOptConSolver B S) :=
  arrow_change (backend_changeNonlinearSystem dyn) this.

Definition changeLinearSystem (lin : LinearPtr_t) (this : NLOptConSolver B S)
  : outcome (NLOptConSolver B S) :=
  arrow_change (backend_changeLinearSystem lin) this.

(** A call of one of the five, with its argument. *)
Inductive change : Type :=
| ChangeTimeHorizon (tf : SCALAR)
| ChangeInitialState (x0 : StateVector)
| ChangeCostFunction (cf : CostFunctionPtr_t)
| ChangeNonlinearSystem (dyn : DynamicsPtr_t)
| ChangeLinearSystem (lin : LinearPtr_t).

(** The call made on the solver, and the backend's method it names. *)
Definition on_solver (c : change) (this : NLOptConSolver B S)
  : outcome (NLOptConSolver B S) :=
  match c with
  | ChangeTimeHorizon tf => changeTimeHorizon tf this
  | ChangeInitialState x0 => changeInitialState x0 this
  | ChangeCostFunction cf => changeCostFunction cf this
  | ChangeNonlinearSystem dyn => changeNonlinearSystem dyn this
  | ChangeLinearSystem lin => changeLinearSystem lin this
  end.

Definition on_backend (c : change) (b : B) : outcome B :=
  match c with
  | ChangeTimeHorizon tf => backend_changeTimeHorizon tf b
  | ChangeInitialState x0 => backend_changeInitialState x0 b
  | ChangeCostFunction cf => backend_changeCostFunction cf b
  | ChangeNonlinearSystem dyn => backend_changeNonlinearSystem dyn b
  | ChangeLinearSystem lin => backend_changeLinearSystem lin b
  end.

(** Calls made one after the other by a caller that catches nothing: the
    first that throws (or is undefined) ends the sequence. *)
Fixpoint in_turn {T : Type} (step : change -> T -> outcome T)
  (cs : seq change) (t : T) : outcome T :=
  match cs with
  | [::] => Returns t
  | c :: cs' => bind (step c t) (in_turn step cs')
  end.

End Changes.

Arguments on_solver {SCALAR StateVector CostFunctionPtr_t DynamicsPtr_t
                     LinearPtr_t B S changes} c this.
Arguments on_backend {SCALAR StateVector CostFunctionPtr_t DynamicsPtr_t
                      LinearPtr_t B changes} c b.

End Mutators.

(** ** Sequences of calls on a [Sensitivity] *)

Module Calls.

Import Core.

Section Requests.

Variable SCALAR : Type.
Variables (STATE_DIM CONTROL_DIM : nat) (D : Type).

(** A call of one of the two setters with a body. *)
Inductive request : Type :=
| SetSubstepTrajectoryReference (xSubstep uSubstep : ptr)
| SetApproximation (approx : APPROXIMATION).

Definition perform (r : request) : method SCALAR STATE_DIM CONTROL_DIM D unit :=
  match r with
  | SetSubstepTrajectoryReference xSubstep uSubstep =>
      setSubstepTrajectoryReference xSubstep uSubstep
  | SetApproximation approx => setApproximation approx
  end.

(** The requests performed one after the other. *)
Fixpoint perform_all (rs : seq request)
  (mem : memory SCALAR STATE_DIM CONTROL_DIM) (this : Sensitivity D)
  : outcome (memory SCALAR STATE_DIM CONTROL_DIM * Sensitivity D) :=
  match rs with
  | [::] => Returns (mem, this)
  | r :: rs' =>
      bind (perform r mem this) (fun res => perform_all rs' res.1.2 res.2)
  end.

(** The pointers given by the last [setSubstepTrajectoryReference] of
    [rs], or [refs] when there is none. *)
Fixpoint lastReferences (rs : seq request) (refs : ptr * ptr) : ptr * ptr :=
  match rs with
  | [::] => refs
  | SetSubstepTrajectoryReference xSubstep uSubstep :: rs' =>
      lastReferences rs' (xSubstep, uSubstep)
  | SetApproximation _ :: rs' => lastReferences rs' refs
  end.

End Requests.

End Calls.

(** ** A singular case for the implicit schemes *)

Module Singular.

Import Core.

(** The system A_c = [[1]], B_c = [[0]] with step [step] and [scheme]
    active: I - A_c and I - 2/2 A_c are zero.  The state view is attached at
    [xSubstep]; no control view is. *)
Definition engine (step : rat) (scheme : APPROXIMATION) (xSubstep : ptr)
  : Engine rat 1 1 :=
  {| xSubstep_ := xSubstep;
     uSubstep_ := nullptr;
     derived := {| linearSystem := fun _ _ _ => (1%:M, 0);
                   dt := step;
                   approximation := scheme |} |}.



End Singular.

(** * Properties of the solver shell *)

Section SolveFacts.

Import Optcon.

Variables B S : Type.
Context {derived : Derived B S}.

Implicit Types (this : NLOptConSolver B S) (calls : seq call).

Lemma solve_loop_solved fuel this :
  solve_loop fuel true this = Some (true, this, [::]).
Proof. by case: fuel. Qed.

Lemma solve_loop_unfold fuel this :
  solve_loop fuel.+1 false this =
  match solve_loop fuel (finishSolve (prepare this)).1
                        (finishSolve (prepare this)).2 with
  | Some (r, this3, calls) =>
      Some (r, this3,
            CallPrepare :: CallFinishSolve (finishSolve (prepare this)).1 :: calls)
  | None => None
  end.
Proof. by rewrite /=; case: (finishSolve (prepare this)). Qed.


(** More fuel does not change a result. *)
Lemma solve_loop_more fuel k solved this res :
  solve_loop fuel solved this = Some res ->
  solve_loop (fuel + k) solved this = Some res.
Proof.
elim: fuel solved this res => [|fuel IH] [] this res //=.
- by rewrite solve_loop_solved.
- case: (finishSolve (prepare this)) => solved' this2.
  case E: (solve_loop fuel solved' this2) => [[[r0 this3] calls0]|] //.
  by rewrite (IH _ _ _ E).
Qed.

(** The fuelled loop and the relation agree. *)
Lemma loop_returns_fuel solved this r this' calls :
  loop_returns solved this r this' calls ->
  exists fuel, solve_loop fuel solved this = Some (r, this', calls).
Proof.
elim=> [{}this|{}this this2 this3 solved' {}r {}calls Hfs _ [fuel IH]].
- by exists 0%N.
- by exists fuel.+1; rewrite solve_loop_unfold Hfs /= IH.
Qed.

Lemma fuel_loop_returns fuel solved this r this' calls :
  solve_loop fuel solved this = Some (r, this', calls) ->
  loop_returns solved this r this' calls.
Proof.
elim: fuel solved this r this' calls => [|fuel IH] [] this r this' calls //=.
- by case=> <- <- <-; apply: loop_exit.
- by case=> <- <- <-; apply: loop_exit.
- case Hfs: (finishSolve (prepare this)) => [solved' this2].
  case E: (solve_loop fuel solved' this2) => [[[r0 this3] calls0]|] //.
  case=> <- <- <-; apply: loop_iterate Hfs _; exact: IH E.
Qed.


(** A [finishSolve] that never answers true keeps the loop running. *)
Lemma solve_loop_never fuel this :
  (forall this0, (finishSolve this0).1 = false) ->
  solve_loop fuel false this = None.
Proof.
move=> never; elim: fuel this => [|fuel IH] this //.
by rewrite solve_loop_unfold never IH.
Qed.

End SolveFacts.

Section SolveClaims.

Import Optcon.

(** C1.  The claim asks [solve()] to stop and report failure once a backend
    that never converges has used up its budget.  The loop of the source has
    no exit but [solved = true]: on the stub that never converges, whatever
    its budget, [solve] has not returned after any number of iterations, and
    no return of it exists. *)
Theorem solve_spins_on_the_stub_that_never_converges (b fuel : nat) :
  solve (derived := Stub.neverConverges) fuel (Stub.fresh b) = None
  /\ (forall r this' calls,
        ~ solve_returns (derived := Stub.neverConverges) (Stub.fresh b) r this' calls).
Proof.
have never : forall this0 : Stub.StubSolver,
    (finishSolve (Derived := Stub.neverConverges) this0).1 = false.
  by move=> this0 /=; case: ifP.
split; first exact: solve_loop_never.
move=> r this' calls /loop_returns_fuel [fuel'].
by rewrite solve_loop_never.
Qed.



End SolveClaims.

Section AccessorClaims.

Import Optcon.

(** C5, as the source has it.  Each read accessor is the backend's accessor
    of the same name applied to the backend [nlocBackend_] points to: it
    returns what that one returns and throws what that one throws, and the
    shell adds no check of its own. *)
Theorem accessors_forward_to_the_backend
  (Policy_t SCALAR StateTrajectory ControlTrajectory TimeArray B S : Type)
  (backend : NLOCBackendBase Policy_t SCALAR StateTrajectory ControlTrajectory
                             TimeArray B)
  (b : B) (s : S) :
  let this := {| nlocBackend_ := Some b; members := s |} in
  getSolution this = backend_getSolution b
  /\ getStateTrajectory this = backend_getStateTrajectory b
  /\ getControlTrajectory this = backend_getControlTrajectory b
  /\ getTimeArray this = backend_getTimeArray b
  /\ getTimeHorizon this = backend_getTimeHorizon b
  /\ getCost this = backend_getCost b.
Proof. by do !split. Qed.

(** C5, as the claim has it, fails: on a backend that answers from its
    fields, every accessor returns data before any iteration has run, and
    none raises a not-initialized error. *)
Lemma accessors_answer_before_any_iteration :
  let this := Stub.beforeAnyIteration in
  getSolution (backend := Stub.readyBackend) this = Returns 7%N
  /\ getStateTrajectory (backend := Stub.readyBackend) this = Returns [:: 7%N]
  /\ getControlTrajectory (backend := Stub.readyBackend) this = Returns [:: 7%N]
  /\ getTimeArray (backend := Stub.readyBackend) this = Returns [:: 0%N]
  /\ getTimeHorizon (backend := Stub.readyBackend) this = Returns 0%N
  /\ getCost (backend := Stub.readyBackend) this = Returns 7%N.
Proof. by do !split. Qed.

End AccessorClaims.

Section ConfigureClaims.

Import Optcon.

Variable F : realFieldType.
Variables (STATE_DIM CONTROL_DIM : nat) (B : Type).
Variable backend_configure : Settings F -> B -> B.

Implicit Types (this : NLOptConSolver B (Shell F)) (settings : Settings F).

Lemma refusedP settings :
  reflect [\/ Core.dt_ (discretization settings) <= 0,
              state_dim settings <> STATE_DIM
            | control_dim settings <> CONTROL_DIM]
          (refused STATE_DIM CONTROL_DIM settings).
Proof.
rewrite /refused; apply: (iffP or3P).
- by case=> [le0|/eqP ne|/eqP ne]; [apply: Or31|apply: Or32|apply: Or33].
- by case=> [le0|/eqP ne|/eqP ne]; [apply: Or31|apply: Or32|apply: Or33].
Qed.

Lemma configure_keeps_positive_dt settings this this' :
  configure STATE_DIM CONTROL_DIM backend_configure settings this = Returns this' ->
  positive_dt this'.
Proof.
rewrite /Optcon.configure; case R: (refused _ _ _) => //.
case: (nlocBackend_ this) => [b|] // [<-]; rewrite /positive_dt /=.
by move: R; rewrite /refused ltNge; case: (_ <= 0).
Qed.

Lemma configure_all_keeps_positive_dt requests this :
  positive_dt this ->
  positive_dt (configure_all STATE_DIM CONTROL_DIM backend_configure requests this).
Proof.
elim: requests this => [|settings requests IH] this //= ok.
case E: (configure _ _ _ settings this) => [this'|e|] //; last exact: IH.
by apply: IH; apply: configure_keeps_positive_dt E.
Qed.

End ConfigureClaims.

(** C4.  The settings constructor stores any step size, so it is [configure]
    that validates: it fails with a configuration error exactly when dt <= 0
    or a dimension differs from STATE_DIM or CONTROL_DIM; when it returns,
    the settings are stored and the backend has been given them; and
    whatever sequence of settings a shell is configured with, the step size
    it has stored is positive. *)
Theorem configure_validates
  (F : realFieldType) (STATE_DIM CONTROL_DIM : nat) (B : Type)
  (backend_configure : Optcon.Settings F -> B -> B)
  (settings : Optcon.Settings F) (b : B) (shell : Optcon.Shell F) :
  let this := {| Optcon.nlocBackend_ := Some b; Optcon.members := shell |} in
  let run := Optcon.configure STATE_DIM CONTROL_DIM backend_configure in
  (forall (dt : F) (approx : Core.APPROXIMATION),
     Core.dt_ (Core.SensitivityApproximationSettings_ctor dt approx) = dt)
  /\ (run settings this = Throws ConfigurationError
   <-> [\/ Core.dt_ (Optcon.discretization settings) <= 0,
           Optcon.state_dim settings <> STATE_DIM
         | Optcon.control_dim settings <> CONTROL_DIM])
  /\ (~~ Optcon.refused STATE_DIM CONTROL_DIM settings ->
      run settings this
      = Returns {| Optcon.nlocBackend_ := Some (backend_configure settings b);
                   Optcon.members := {| Optcon.settings_ := Some settings |} |}
      /\ 0 < Core.dt_ (Optcon.discretization settings))
  /\ (forall requests : seq (Optcon.Settings F),
        Optcon.positive_dt
          (Optcon.configure_all STATE_DIM CONTROL_DIM backend_configure requests
             (Optcon.unconfigured F (Some b)))).
Proof.
move=> this run; split=> //; split; last split.
- rewrite /run /Optcon.configure /=; split.
    by case R: (Optcon.refused _ _ _) => // _; apply/refusedP.
  by move/refusedP => ->.
- move=> ok; rewrite /run /Optcon.configure (negbTE ok) /=; split=> //.
  by move: ok; rewrite /Optcon.refused ltNge; case: (_ <= 0).
- by move=> requests; apply: configure_all_keeps_positive_dt.
Qed.

Lemma configure_validates_witness :
  let this := {| Optcon.nlocBackend_ := Some 0%N;
                 Optcon.members := {| Optcon.settings_ := None |} |} in
  let bad := {| Optcon.discretization :=
                  Core.SensitivityApproximationSettings_ctor (- 1 : rat)
                    Core.FORWARD_EULER;
                Optcon.state_dim := 2; Optcon.control_dim := 1 |} in
  let good := {| Optcon.discretization :=
                   Core.SensitivityApproximationSettings_ctor (1 : rat)
                     Core.TUSTIN;
                 Optcon.state_dim := 2; Optcon.control_dim := 1 |} in
  Optcon.configure 2 1 (fun _ b => b.+1) bad this = Throws ConfigurationError
  /\ Optcon.configure 2 1 (fun _ b => b.+1) good this
     = Returns {| Optcon.nlocBackend_ := Some 1%N;
                  Optcon.members := {| Optcon.settings_ := Some good |} |}.
Proof.
move=> this bad good; split.
- have [_ [[_ fails] _]] :=
    configure_validates 2 1 (fun _ b => b.+1) bad 0%N {| Optcon.settings_ := None |}.
  by apply: fails; apply: Or31.
- have [_ [_ [stores _]]] :=
    configure_validates 2 1 (fun _ b => b.+1) good 0%N {| Optcon.settings_ := None |}.
  by have [-> _] := stores (erefl true).
Defined.

(** * Properties of the sensitivity interface *)

Section SensitivityClaims.

Import Core.

Variable SCALAR : Type.
Variables (STATE_DIM CONTROL_DIM : nat) (D : Type).

Implicit Types (mem : memory SCALAR STATE_DIM CONTROL_DIM) (this : Sensitivity D).

(** C9.  [setSubstepTrajectoryReference] returns for every pair of pointers,
    null and dangling ones included; afterwards the two stored references
    are the pointers given, and the rest of the object and all of the memory
    (so every buffer, referenced or not) are as before. *)
Theorem setSubstepTrajectoryReference_assigns (xSubstep uSubstep : ptr) mem this :
  exists this',
    [/\ setSubstepTrajectoryReference xSubstep uSubstep mem this
        = Returns (tt, mem, this'),
        xSubstep_ this' = xSubstep,
        uSubstep_ this' = uSubstep
      & derived this' = derived this].
Proof. by eexists; split; first by []. Qed.

(** C10.  [clone()] throws the runtime error with the message of the source,
    on every object and memory, and returns nothing. *)
Theorem clone_throws mem this :
  clone mem this = Throws (runtime_error "clone not implemented for Sensitivity")
  /\ returned (clone mem this) = false.
Proof. by []. Qed.

(** C3, as the source has it.  The [setApproximation] of [Sensitivity] has an
    empty body: for every scheme it returns, and the object and the memory
    are as they were. *)
Theorem setApproximation_does_nothing (approx : APPROXIMATION) mem this :
  setApproximation approx mem this = Returns (tt, mem, this).
Proof. by []. Qed.

End SensitivityClaims.

(** C3, as the claim has it, fails: asked for Tustin on an engine whose
    active scheme is ForwardEuler, [setApproximation] raises nothing and
    the active scheme is ForwardEuler still. *)
Lemma setApproximation_neither_fails_nor_switches :
  let this := Example.engine rat Core.FORWARD_EULER in
  let mem := Example.noMemory rat in
  exists this',
    [/\ Core.setApproximation Core.TUSTIN mem this = Returns (tt, mem, this'),
        thrown (Core.setApproximation Core.TUSTIN mem this) = false,
        Core.approximation (Core.derived this') = Core.FORWARD_EULER
      & Core.APPROXIMATION_eqb (Core.approximation (Core.derived this')) Core.TUSTIN
        = false].
Proof. by eexists; split; first by []. Qed.

(** * The power series on nilpotent matrices *)

Section PowerSeriesFacts.

Import Core.

Variable F : realFieldType.

Lemma mxpow0 (k : nat) (M : 'M[F]_k) : mxpow M 0 = 1%:M.
Proof. by []. Qed.

Lemma mxpowS (k : nat) (M : 'M[F]_k) (i : nat) : mxpow M i.+1 = M *m mxpow M i.
Proof. by []. Qed.

Lemma mxpowD (k : nat) (M : 'M[F]_k) (i j : nat) :
  mxpow M (i + j) = mxpow M i *m mxpow M j.
Proof.
elim: i => [|i IH]; first by rewrite add0n mxpow0 mul1mx.
by rewrite addSn !mxpowS IH mulmxA.
Qed.

Lemma mxpow_scale (k : nat) (a : F) (M : 'M[F]_k) (i : nat) :
  mxpow (a *: M) i = a ^+ i *: mxpow M i.
Proof.
elim: i => [|i IH]; first by rewrite !mxpow0 expr0 scale1r.
by rewrite !mxpowS IH -scalemxAl -scalemxAr scalerA exprS.
Qed.

Lemma mxpow_zero (k : nat) (i : nat) : mxpow (0 : 'M[F]_k) i.+1 = 0.
Proof. by rewrite mxpowS mul0mx. Qed.

(** Past a vanishing power every power vanishes. *)
Lemma mxpow_vanishes (k : nat) (M : 'M[F]_k) (j i : nat) :
  mxpow M j = 0 -> (j <= i)%N -> mxpow M i = 0.
Proof. by move=> Mj0 /subnK <-; rewrite mxpowD Mj0 mulmx0. Qed.

Lemma mxpow_exp (k : nat) (M : 'M[F]_k.+1) (i : nat) : mxpow M i = M ^+ i.
Proof.
elim: i => [|i IH]; first by rewrite mxpow0 expr0.
by rewrite mxpowS IH exprS.
Qed.

(** A nilpotent matrix of dimension [k] vanishes at the power [k]: its
    minimal polynomial divides a power of X and the characteristic one. *)
Lemma mxpow_nilpotent (k : nat) (M : 'M[F]_k) (j : nat) :
  mxpow M j = 0 -> mxpow M k = 0.
Proof.
case: k M => [|k] M Mj0; first exact: flatmx0.
have hornerXn e : horner_mx M (('X - 0%:P) ^+ e) = mxpow M e.
  by rewrite subr0 rmorphXn /= horner_mx_X mxpow_exp.
have div : mxminpoly M %| ('X - 0%:P) ^+ j.
  by apply: mxminpoly_min; rewrite hornerXn.
have [d _ eqd] := dvdp_exp_XsubCP div.
have Md0 : mxpow M d = 0.
  by rewrite -hornerXn; apply/mxminpoly_minP; rewrite (eqp_dvdl _ eqd).
apply: mxpow_vanishes Md0 _.
have := dvdp_leq (monic_neq0 (char_poly_monic M)) (mxminpoly_dvd_char M).
by rewrite size_char_poly (eqp_size eqd) subr0 size_polyXn.
Qed.

Lemma expSeriesS (k : nat) (M : 'M[F]_k) (j : nat) :
  expSeries M j.+1 = expSeries M j + (j`!%:R)^-1 *: mxpow M j.
Proof. by rewrite /expSeries big_ord_recr. Qed.

(** The series is stationary from a vanishing power on. *)
Lemma expSeries_stationary (k : nat) (M : 'M[F]_k) (j i : nat) :
  mxpow M j = 0 -> (j <= i)%N -> expSeries M i = expSeries M j.
Proof.
move=> Mj0 /subnKC <-; elim: (i - j)%N => [|d IH]; first by rewrite addn0.
by rewrite addnS expSeriesS IH (mxpow_vanishes Mj0) ?leq_addr // scaler0 addr0.
Qed.

(** The series cut at the dimension is the exponential on nilpotent
    matrices. *)
Lemma mexp_nilpotentP : exp_on_nilpotent (mexp_nilpotent F).
Proof.
move=> k M j Mj0; rewrite /mexp_nilpotent.
case: (leqP j k) => [le|/ltnW le]; first exact: expSeries_stationary.
by rewrite [RHS](@expSeries_stationary _ _ k) //; apply: mxpow_nilpotent Mj0.
Qed.

End PowerSeriesFacts.

(** * Properties of the discretization schemes *)

Section SchemeFacts.

Import Core.

Variable F : realFieldType.
Variables STATE_DIM CONTROL_DIM : nat.
Variable mexp : forall k : nat, 'M[F]_k -> 'M[F]_k.
Variable structureSplit :
  StateMatrix F STATE_DIM -> StateControlMatrix F STATE_DIM CONTROL_DIM -> F ->
  outcome (DiscreteLinearSystem F STATE_DIM CONTROL_DIM).

Implicit Types (Ac : StateMatrix F STATE_DIM).
Implicit Types (Bc : StateControlMatrix F STATE_DIM CONTROL_DIM).
Implicit Types (dt : F).



(** An implicit scheme that does not throw has inverted its matrix. *)
Lemma backwardEuler_returns Ac Bc dt Ad Bd :
  backwardEuler Ac Bc dt = Returns (Ad, Bd) ->
  Ad *m (1%:M - dt *: Ac) = 1%:M /\ Bd = Ad *m (dt *: Bc).
Proof.
rewrite /backwardEuler; case: ifP => // unit [<- <-].
by rewrite mulVmx.
Qed.

Lemma mexp_zero (k : nat) : exp_on_nilpotent mexp -> mexp (0 : 'M[F]_k) = 1%:M.
Proof.
move=> exp; rewrite (exp _ _ 1%N) ?mxpow_zero //.
by rewrite /expSeries big_ord_recl big_ord0 addr0 fact0 invr1 scale1r.
Qed.

(** The zero system under the schemes whose formulas section 4.3 gives. *)
Lemma discretize_zero_system (scheme : APPROXIMATION) dt :
  exp_on_nilpotent mexp ->
  scheme <> SYMPLECTIC_EULER ->
  discretize mexp structureSplit scheme 0 0 dt = Returns (1%:M, 0).
Proof.
move=> exp; case: scheme => // _ /=.
- by rewrite /forwardEuler !scaler0 addr0.
- by rewrite /backwardEuler scaler0 subr0 unitmx1 invmx1 scaler0 mulmx0.
- by rewrite /tustin !scaler0 subr0 addr0 unitmx1 invmx1 !mulmx1 mulmx0.
- rewrite /matrixExponential /augmented scaler0 mexp_zero // subrr mulmx0.
  rewrite block_mx0 scaler0 mexp_zero // scalar_mx_block block_mxKur.
  by case: ifP.
Qed.

End SchemeFacts.

Section SquareZero.

Import Core.

Variable F : realFieldType.
Variables STATE_DIM CONTROL_DIM : nat.
Variable mexp : forall k : nat, 'M[F]_k -> 'M[F]_k.
Hypothesis exp : exp_on_nilpotent mexp.

Implicit Types (Ac : StateMatrix F STATE_DIM).
Implicit Types (Bc : StateControlMatrix F STATE_DIM CONTROL_DIM).
Implicit Types (dt : F).

(** Powers of the augmented matrix, by blocks. *)
Lemma mxpow_augmented Ac Bc (i : nat) :
  mxpow (augmented Ac Bc) i.+1 = block_mx (mxpow Ac i.+1) (mxpow Ac i *m Bc) 0 0.
Proof.
elim: i => [|i IH]; first by rewrite !mxpowS !mxpow0 !mulmx1 mul1mx.
rewrite mxpowS IH /augmented mulmx_block !mul0mx !mulmx0 !addr0.
by rewrite -!mxpowS mulmxA -mxpowS.
Qed.

Lemma expSeries2 (k : nat) (M : 'M[F]_k) : expSeries M 2%N = 1%:M + M.
Proof.
rewrite !expSeriesS /expSeries big_ord0 add0r mxpowS !mxpow0 mulmx1.
by rewrite fact0 invr1 !scale1r.
Qed.

Lemma expSeries3 (k : nat) (M : 'M[F]_k) :
  expSeries M 3%N = 1%:M + M + 2%:R^-1 *: mxpow M 2%N.
Proof. by rewrite expSeriesS expSeries2. Qed.

(** MatrixExponential on a singular A_c whose square is zero: the two
    series are finite, A_d = I + dt A_c and B_d = dt B_c + dt^2/2 A_c B_c. *)
Lemma matrixExponential_square_zero Ac Bc dt :
  Ac *m Ac = 0 ->
  Ac \notin unitmx ->
  matrixExponential mexp Ac Bc dt
  = Returns (1%:M + dt *: Ac, dt *: Bc + (dt ^+ 2 / 2%:R) *: (Ac *m Bc)).
Proof.
move=> sq0 /negbTE sing; rewrite /matrixExponential sing.
have Ac2 : mxpow Ac 2%N = 0 by rewrite !mxpowS mxpow0 mulmx1.
have -> : mexp (dt *: Ac) = 1%:M + dt *: Ac.
  by rewrite (exp (j := 2%N)) ?expSeries2 // mxpow_scale Ac2 scaler0.
have -> : mexp (dt *: augmented Ac Bc)
          = 1%:M + dt *: augmented Ac Bc
            + 2%:R^-1 *: (dt ^+ 2 *: block_mx 0 (Ac *m Bc) 0 0).
  rewrite (exp (j := 3%N)) ?expSeries3 ?mxpow_scale ?mxpow_augmented.
  - by rewrite (mxpow_vanishes Ac2) // Ac2 mul0mx block_mx0 scaler0.
  - by rewrite Ac2 mxpowS mxpow0 mulmx1.
congr (Returns (_, _)).
rewrite /augmented scalar_mx_block !scale_block_mx !add_block_mx block_mxKur.
by rewrite add0r scalerA mulrC.
Qed.

End SquareZero.

(** * The double integrator *)

Section DoubleIntegratorFacts.

Import Core Example.

Variable F : realFieldType.

(** The entries of a matrix given by its rows, one index after the other. *)
Ltac entries :=
  apply/matrixP; case=> [[|[|[|?]]] ?] //; case=> [[|[|[|?]]] ?] //;
  rewrite !mxE; repeat (rewrite big_ord_recl !mxE); rewrite ?big_ord0 /=;
  rewrite ?mulr0 ?mul0r ?mulr1 ?mul1r ?addr0 ?add0r ?mulr0n ?mulr1n.

Lemma Ac_square : Ac F *m Ac F = 0.
Proof. by entries. Qed.

(** A_c is singular: an invertible matrix of square zero would be zero. *)
Lemma Ac_singular : Ac F \notin unitmx.
Proof.
apply/negP => unit.
have /matrixP /(_ ord0 (lift ord0 ord0)) : Ac F = 0.
  by rewrite -[LHS](mulKmx unit) Ac_square mulmx0.
by rewrite !mxE /= => /eqP; rewrite oner_eq0.
Qed.

Lemma forwardEuler_Ad : 1%:M + dt F *: Ac F = Ad_spec F.
Proof. by entries. Qed.

Lemma forwardEuler_Bd : dt F *: Bc F = Bd_spec F.
Proof. by entries. Qed.

Lemma exact_Bd :
  dt F *: Bc F + (dt F ^+ 2 / 2%:R) *: (Ac F *m Bc F) = Bd_exact F.
Proof.
entries; rewrite ?mulr1 ?mulr0 ?addr0 //.
by rewrite /dt exprVn -invfM -natrX -natrM.
Qed.

(** The exact B_d is not the B_d of the specification: its first entry is
    1/200, not 0. *)
Lemma exact_Bd_differs : Bd_exact F <> Bd_spec F.
Proof.
move/matrixP /(_ ord0 ord0); rewrite !mxE /= => /eqP.
by rewrite invr_eq0 pnatr_eq0.
Qed.

Variable mexp : forall k : nat, 'M[F]_k -> 'M[F]_k.
Variable structureSplit :
  StateMatrix F 2 -> StateControlMatrix F 2 1 -> F ->
  outcome (DiscreteLinearSystem F 2 1).

Lemma getAandB_forwardEuler x u x_next (k : int) (numSteps : nat) mem :
  getAandB mexp structureSplit x u x_next k numSteps mem (engine F FORWARD_EULER)
  = Returns ((Ad_spec F, Bd_spec F), mem, engine F FORWARD_EULER).
Proof. by rewrite /getAandB /= /forwardEuler forwardEuler_Ad forwardEuler_Bd. Qed.

Lemma getAandB_matrixExponential x u x_next (k : int) (numSteps : nat) mem :
  exp_on_nilpotent mexp ->
  getAandB mexp structureSplit x u x_next k numSteps mem
           (engine F MATRIX_EXPONENTIAL)
  = Returns ((Ad_spec F, Bd_exact F), mem, engine F MATRIX_EXPONENTIAL).
Proof.
move=> exp.
have := matrixExponential_square_zero exp (Bc F) (dt F) Ac_square Ac_singular.
rewrite /getAandB /= /matrixExponential => -[-> ->].
by rewrite forwardEuler_Ad exact_Bd.
Qed.

End DoubleIntegratorFacts.

(** C8, as section 4.3 has the schemes.  On A_c = [[0,1],[0,0]],
    B_c = [[0],[1]] and dt = 0.1, with any exponential that is the power
    series on nilpotent matrices, ForwardEuler gives A_d = [[1,0.1],[0,1]]
    and B_d = [[0],[0.1]]; MatrixExponential gives the same A_d, and
    B_d = [[0.005],[0.1]], which is another matrix. *)
Theorem double_integrator_discretized
  (F : realFieldType) (mexp : forall k : nat, 'M[F]_k -> 'M[F]_k)
  (structureSplit : Core.StateMatrix F 2 -> Core.StateControlMatrix F 2 1 -> F ->
                    outcome (Core.DiscreteLinearSystem F 2 1))
  (x : Core.StateVector F 2) (u : Core.ControlVector F 1)
  (x_next : Core.StateVector F 2) (k : int) (numSteps : nat)
  (mem : Core.memory F 2 1) :
  Core.exp_on_nilpotent mexp ->
  [/\ Core.getAandB mexp structureSplit x u x_next k numSteps mem
         (Example.engine F Core.FORWARD_EULER)
       = Returns ((Example.Ad_spec F, Example.Bd_spec F), mem,
                  Example.engine F Core.FORWARD_EULER),
       Core.getAandB mexp structureSplit x u x_next k numSteps mem
         (Example.engine F Core.MATRIX_EXPONENTIAL)
       = Returns ((Example.Ad_spec F, Example.Bd_exact F), mem,
                  Example.engine F Core.MATRIX_EXPONENTIAL)
     & Example.Bd_exact F <> Example.Bd_spec F].
Proof.
move=> exp; split.
- exact: getAandB_forwardEuler.
- exact: getAandB_matrixExponential.
- exact: exact_Bd_differs.
Qed.

Lemma double_integrator_witness :
  [/\ Core.getAandB (Core.mexp_nilpotent rat) (@Core.forwardEuler rat 2 1)
         0 0 0 0 1%N (Example.noMemory rat)
         (Example.engine rat Core.FORWARD_EULER)
       = Returns ((Example.Ad_spec rat, Example.Bd_spec rat),
                  Example.noMemory rat, Example.engine rat Core.FORWARD_EULER),
       Core.getAandB (Core.mexp_nilpotent rat) (@Core.forwardEuler rat 2 1)
         0 0 0 0 1%N (Example.noMemory rat)
         (Example.engine rat Core.MATRIX_EXPONENTIAL)
       = Returns ((Example.Ad_spec rat, Example.Bd_exact rat),
                  Example.noMemory rat,
                  Example.engine rat Core.MATRIX_EXPONENTIAL)
     & Example.Bd_exact rat <> Example.Bd_spec rat].
Proof.
exact: (double_integrator_discretized (@Core.forwardEuler rat 2 1) 0 0 0 0 1%N
          (Example.noMemory rat) (@mexp_nilpotentP rat)).
Defined.

(** C8, as the claim has it, fails: MatrixExponential does not give
    B_d = [[0],[0.1]] on the double integrator, its B_d has 1/200 where that
    matrix has 0. *)
Lemma matrixExponential_Bd_is_not_forwardEuler_Bd :
  Core.getAandB (Core.mexp_nilpotent rat) (@Core.forwardEuler rat 2 1)
    0 0 0 0 1%N (Example.noMemory rat)
    (Example.engine rat Core.MATRIX_EXPONENTIAL)
  = Returns ((Example.Ad_spec rat, Example.Bd_exact rat),
             Example.noMemory rat, Example.engine rat Core.MATRIX_EXPONENTIAL)
  /\ Example.Bd_exact rat ord0 ord0 = 200%:R^-1
  /\ Example.Bd_spec rat ord0 ord0 = 0
  /\ Example.Bd_exact rat != Example.Bd_spec rat.
Proof.
split; first exact: getAandB_matrixExponential (@mexp_nilpotentP rat).
split; first by rewrite !mxE.
split; first by rewrite !mxE.
by apply/eqP; apply: exact_Bd_differs.
Qed.




(** * Further properties of [solve] *)

Section RunFacts.

Import Optcon Run.

Variables B S : Type.
Context {derived : Derived B S}.

Implicit Types (this : NLOptConSolver B S) (calls : seq call).

(** One pass of the loop: it is left if the pass converged, and goes on from
    the object of the pass if not. *)
Lemma solve_loop_round fuel this :
  solve_loop fuel.+1 false this =
  if answer this then Some (true, round this, lastRound)
  else match solve_loop fuel false (round this) with
       | Some (r, this', calls) => Some (r, this', idleRound ++ calls)
       | None => None
       end.
Proof.
rewrite solve_loop_unfold -/(answer this) -/(round this).
by case: (answer this); rewrite ?solve_loop_solved.
Qed.

Lemma after_round k this : after k (round this) = after k.+1 this.
Proof. by rewrite /after -iterSr. Qed.

Lemma first_convergence0 this : first_convergence this 0 = answer this.
Proof. by rewrite /first_convergence /= andbT. Qed.

Lemma first_convergenceS this k :
  first_convergence this k.+1 = ~~ answer this && first_convergence (round this) k.
Proof.
rewrite /first_convergence /= -[1%N]addn0 iotaDl all_map after_round.
rewrite andbCA; congr (_ && (_ && _)).
by apply: eq_all => i; rewrite /= after_round.
Qed.

Lemma solve_loop_first_convergence this k fuel :
  first_convergence this k -> (k < fuel)%N ->
  solve_loop fuel false this = Some (true, after k.+1 this, callsUntil k).
Proof.
elim: k this fuel => [|k IH] this [|fuel] //.
  by rewrite first_convergence0 solve_loop_round => ->.
rewrite first_convergenceS ltnS => /andP [/negbTE quiet first] lt.
by rewrite solve_loop_round quiet (IH _ _ first lt) after_round.
Qed.

Lemma solve_loop_result fuel this r this' calls :
  solve_loop fuel false this = Some (r, this', calls) ->
  exists2 k : nat,
    (k < fuel)%N && first_convergence this k
    & [/\ r = true, this' = after k.+1 this & calls = callsUntil k].
Proof.
elim: fuel this r this' calls => [|fuel IH] this r this' calls //.
rewrite solve_loop_round; case conv: (answer this).
  by case=> <- <- <-; exists 0%N; rewrite ?first_convergence0.
case E: (solve_loop fuel false (round this)) => [[[r0 this0] calls0]|] //.
case=> <- <- <-; have [k /andP [lt first] [-> -> ->]] := IH _ _ _ _ E.
by exists k.+1; rewrite ?first_convergenceS ?conv ?ltnS ?lt ?after_round.
Qed.

Lemma solve_loop_invariant (I : NLOptConSolver B S -> Prop) :
  (forall this, I this -> I (prepare this)) ->
  (forall this, I this -> I (finishSolve this).2) ->
  forall fuel this r this' calls,
    I this -> solve_loop fuel false this = Some (r, this', calls) -> I this'.
Proof.
move=> keepP keepF; elim=> [|fuel IH] this r this' calls // inv.
have inv' : I (round this) by apply: keepF; apply: keepP.
rewrite solve_loop_round; case: (answer this); first by case=> _ <- _.
case E: (solve_loop fuel false (round this)) => [[[r0 this0] calls0]|] //.
by case=> _ <- _; apply: IH inv' E.
Qed.

End RunFacts.

(** X1.  If pass number [k] is the first whose [finishSolve] returns true,
    then [solve], given room for more than [k] passes, returns true after
    exactly [k + 1] passes: it leaves the object of pass [k], and has called
    [prepare] and [finishSolve] in turn, [k + 1] times each. *)
Theorem solve_stops_at_first_convergence
  (B S : Type) (derived : Optcon.Derived B S)
  (this : Optcon.NLOptConSolver B S) (k fuel : nat) :
  Run.first_convergence this k -> (k < fuel)%N ->
  Optcon.solve fuel this = Some (true, Run.after k.+1 this, Run.callsUntil k).
Proof. exact: solve_loop_first_convergence. Qed.

Lemma solve_stops_witness :
  Optcon.solve (derived := Stub.stub (fun i => i == 2%N)) 10 (Stub.fresh 5)
  = Some (true,
          Run.after (derived := Stub.stub (fun i => i == 2%N)) 3 (Stub.fresh 5),
          Run.callsUntil 2).
Proof.
exact: (@solve_stops_at_first_convergence _ _ (Stub.stub (fun i => i == 2%N))
          (Stub.fresh 5) 2 10 (erefl true) (erefl true)).
Defined.

(** X2.  Whenever [solve] returns, it returns true, some pass [k] was the
    first to converge, the object left is the object of that pass, and the
    calls made are those of [k + 1] passes. *)
Theorem solve_returns_at_first_convergence
  (B S : Type) (derived : Optcon.Derived B S)
  (this this' : Optcon.NLOptConSolver B S) (fuel : nat) (r : bool)
  (calls : seq Optcon.call) :
  Optcon.solve fuel this = Some (r, this', calls) ->
  exists2 k : nat,
    (k < fuel)%N && Run.first_convergence this k
    & [/\ r = true, this' = Run.after k.+1 this & calls = Run.callsUntil k].
Proof. exact: solve_loop_result. Qed.

Lemma solve_returns_witness :
  exists2 k : nat,
    (k < 4)%N
    && Run.first_convergence (derived := Stub.stub (fun i => i == 2%N))
         (Stub.fresh 5) k
    & [/\ true = true,
          {| Optcon.nlocBackend_ := None;
             Optcon.members := {| Stub.iterations := 3; Stub.budget := 5 |} |}
          = Run.after (derived := Stub.stub (fun i => i == 2%N)) k.+1 (Stub.fresh 5)
        & Optcon.idleRound ++ Optcon.idleRound ++ Optcon.lastRound
          = Run.callsUntil k].
Proof.
exact: (@solve_returns_at_first_convergence _ _ (Stub.stub (fun i => i == 2%N))
          (Stub.fresh 5) _ 4 _ _ (erefl _)).
Defined.

Section ThrowingFacts.

Import Optcon Throwing.

Variables B S : Type.
Context {derived : DerivedExn B S}.

Implicit Types (this t : NLOptConSolver B S).

Lemma solve_loop_exn_solved fuel this :
  solve_loop_exn fuel true this = Some (Returns (true, this)).
Proof. by case: fuel. Qed.

(** The loop has not been left after [fuel] passes exactly when these all
    returned with [solved] false. *)
Lemma solve_loop_exn_looping fuel this :
  isSome (solve_loop_exn fuel false this) = ~~ isSome (afterQuiet fuel this).
Proof.
elim: fuel this => [|fuel IH] this //=.
case: (pass this) => [[[] this']|e|] //=.
by rewrite solve_loop_exn_solved.
Qed.

(** The loop is left by the first pass that does not return with [solved]
    false, and with the outcome of that pass. *)
Lemma solve_loop_exn_left fuel this o :
  solve_loop_exn fuel false this = Some o ->
  exists k t,
    [/\ (k < fuel)%N, afterQuiet k this = Some t, leaves (pass t) & pass t = o].
Proof.
elim: fuel this => [|fuel IH] this //=.
case E: (pass this) => [[[] this']|e|].
- rewrite solve_loop_exn_solved => -[<-].
  by exists 0%N, this; split=> //; rewrite E.
- move/IH => [k [t [lt quiet out eq]]].
  by exists k.+1, t; split=> //=; rewrite E.
- by case=> <-; exists 0%N, this; split=> //; rewrite E.
- by case=> <-; exists 0%N, this; split=> //; rewrite E.
Qed.

Lemma solve_loop_exn_leaves k fuel this t :
  (k < fuel)%N -> afterQuiet k this = Some t -> leaves (pass t) ->
  solve_loop_exn fuel false this = Some (pass t).
Proof.
elim: k fuel this => [|k IH] [|fuel] this //=.
- move=> _ [<-]; case: (pass this) => [[[] this']|e|] //= _.
  by rewrite solve_loop_exn_solved.
- rewrite ltnS => lt.
  by case: (pass this) => [[[] this']|e|] //=; apply: IH.
Qed.

End ThrowingFacts.

(** When neither method throws, the loop over calls that may throw is the
    loop of [Optcon]. *)
Lemma solve_loop_exn_returning (B S : Type) (d : Optcon.Derived B S)
  (fuel : nat) (solved : bool) (this : Optcon.NLOptConSolver B S) :
  Throwing.solve_loop_exn (derived := Throwing.returning d) fuel solved this
  = omap (fun res => Returns (res.1.1, res.1.2)) (Optcon.solve_loop fuel solved this).
Proof.
elim: fuel solved this => [|fuel IH] [] this //=.
rewrite /Throwing.pass /=; case: (Optcon.finishSolve _) => solved' this' /=.
by rewrite IH; case: (Optcon.solve_loop _ _ _) => [[[r t] calls]|].
Qed.

(** X3.  The loop of [solve] catches nothing and has two ways out.  After
    any number of passes [solve] is still in its loop exactly when each of
    these passes returned with [finishSolve] answering false; and it is left,
    with outcome [o], exactly when the first pass that did otherwise had the
    outcome [o]: a return with the answer true, which [solve] returns, or
    what [prepare] or [finishSolve] threw, which [solve] throws on.  A value
    it returns is true.  On a solver that never throws this is the [solve]
    of [Optcon]. *)
Theorem solve_leaves_by_answer_or_exception
  (B S : Type) (derived : Throwing.DerivedExn B S)
  (this : Optcon.NLOptConSolver B S) :
  [/\ forall fuel : nat,
        Throwing.solve_exn fuel this = None
        <-> isSome (Throwing.afterQuiet fuel this),
      forall (fuel : nat) o,
        Throwing.solve_exn fuel this = Some o
        <-> exists k t,
              [/\ (k < fuel)%N, Throwing.afterQuiet k this = Some t,
                  Throwing.leaves (Throwing.pass t) & Throwing.pass t = o],
      forall (fuel : nat) r this',
        Throwing.solve_exn fuel this = Some (Returns (r, this')) -> r = true
    & forall (d : Optcon.Derived B S) (fuel : nat),
        Throwing.solve_exn (derived := Throwing.returning d) fuel this
        = omap (fun res => Returns (res.1.1, res.1.2)) (Optcon.solve fuel this)].
Proof.
split.
- move=> fuel; have := @solve_loop_exn_looping _ _ derived fuel this.
  rewrite /Throwing.solve_exn.
  by case: (Throwing.solve_loop_exn _ _ _); case: (Throwing.afterQuiet _ _).
- move=> fuel o; split; first exact: solve_loop_exn_left.
  by case=> k [t [lt quiet out <-]]; apply: solve_loop_exn_leaves quiet out.
- move=> fuel r this' /solve_loop_exn_left [k [t [_ _ out eq]]].
  by move: out; rewrite eq; case: r {eq}.
- by move=> d fuel; apply: solve_loop_exn_returning.
Qed.

Lemma solve_leaves_witness :
  Throwing.solve_exn (derived := Throwing.throwsAt 2) 7 (Stub.fresh 5)
  = Some (Throws (runtime_error "finishSolve failed"))
  /\ Throwing.solve_exn (derived := Throwing.throwsAt 2) 2 (Stub.fresh 5) = None.
Proof.
have [looping left _ _] :=
  @solve_leaves_by_answer_or_exception _ _ (Throwing.throwsAt 2) (Stub.fresh 5).
split.
- apply/left; exists 2%N.
  exists {| Optcon.nlocBackend_ := None;
            Optcon.members := {| Stub.iterations := 2; Stub.budget := 5 |} |}.
  by split.
- exact/looping.
Defined.

(** X4.  [solve] changes the object through [prepare] and [finishSolve]
    only: a property of the object that both keep holds of the object
    [solve] leaves. *)
Theorem solve_keeps_invariant
  (B S : Type) (derived : Optcon.Derived B S)
  (I : Optcon.NLOptConSolver B S -> Prop) :
  (forall this, I this -> I (Optcon.prepare this)) ->
  (forall this, I this -> I (Optcon.finishSolve this).2) ->
  forall (fuel : nat) this r this' calls,
    I this -> Optcon.solve fuel this = Some (r, this', calls) -> I this'.
Proof. exact: solve_loop_invariant. Qed.

Lemma solve_keeps_invariant_witness :
  Stub.budget
    (Optcon.members
       (Run.after (derived := Stub.stub (fun i => i == 2%N)) 3 (Stub.fresh 5)))
  = 5%N.
Proof.
apply: (@solve_keeps_invariant _ _ (Stub.stub (fun i => i == 2%N))
          (fun t => Stub.budget (Optcon.members t) = 5%N)
          (fun t inv => inv) (fun t inv => inv)
          4 (Stub.fresh 5) true _ (Run.callsUntil 2) (erefl _) (erefl _)).
Defined.

(** * Properties of the forwarding mutators *)

Section MutatorFacts.

Import Optcon Mutators.

Variables SCALAR StateVector CostFunctionPtr_t DynamicsPtr_t LinearPtr_t : Type.
Variables B S : Type.
Context {changes : NLOCBackendChanges SCALAR StateVector CostFunctionPtr_t
                                      DynamicsPtr_t LinearPtr_t B}.

Implicit Types
  (c : change SCALAR StateVector CostFunctionPtr_t DynamicsPtr_t LinearPtr_t).
Implicit Types
  (cs : seq (change SCALAR StateVector CostFunctionPtr_t DynamicsPtr_t LinearPtr_t)).
Implicit Types (b : B) (s : S).

Lemma on_solver_backend c b s :
  on_solver c {| nlocBackend_ := Some b; members := s |}
  = bind (on_backend c b)
         (fun b' => Returns {| nlocBackend_ := Some b'; members := s |}).
Proof. by case: c. Qed.

Lemma in_turn_on_solver cs b s :
  in_turn on_solver cs {| nlocBackend_ := Some b; members := s |}
  = bind (in_turn on_backend cs b)
         (fun b' => Returns {| nlocBackend_ := Some b'; members := s |}).
Proof.
elim: cs b => [|c cs IH] b //=.
by rewrite on_solver_backend; case: (on_backend c b) => [b'|e|] //=.
Qed.

Lemma in_turn_on_null c cs s :
  in_turn on_solver (c :: cs) (NLOptConSolver_ctor B s) = Undefined.
Proof. by case: c. Qed.

(** Reading through the solver after the changes is reading the changed
    backend. *)
Lemma read_after_changes (A : Type) (read : B -> outcome A) cs b s :
  bind (in_turn on_solver cs {| nlocBackend_ := Some b; members := s |})
       (fun this => arrow (nlocBackend_ this) read)
  = bind (in_turn on_backend cs b) read.
Proof. by rewrite in_turn_on_solver; case: (in_turn _ _ _). Qed.

End MutatorFacts.

(** X5.  The five [change...] methods add nothing to what the backend does:
    any sequence of them made on a solver whose backend is [b] returns,
    throws or is undefined as the same sequence made on [b]; when it
    returns, the solver holds the backend so changed and its own members as
    they were; and what each of the six accessors then answers is what the
    backend's accessor answers after the changes. *)
Theorem changes_pass_through_the_solver
  (Policy_t SCALAR StateTrajectory ControlTrajectory TimeArray : Type)
  (StateVector CostFunctionPtr_t DynamicsPtr_t LinearPtr_t B S : Type)
  (backend : Optcon.NLOCBackendBase Policy_t SCALAR StateTrajectory
                                    ControlTrajectory TimeArray B)
  (changes : Mutators.NLOCBackendChanges SCALAR StateVector CostFunctionPtr_t
                                         DynamicsPtr_t LinearPtr_t B)
  (cs : seq (Mutators.change SCALAR StateVector CostFunctionPtr_t DynamicsPtr_t
                             LinearPtr_t))
  (b : B) (s : S) :
  let this := {| Optcon.nlocBackend_ := Some b; Optcon.members := s |} in
  let changed := Mutators.in_turn Mutators.on_solver cs this in
  let changed_backend := Mutators.in_turn Mutators.on_backend cs b in
  changed
  = bind changed_backend
      (fun b' => Returns {| Optcon.nlocBackend_ := Some b'; Optcon.members := s |})
  /\ bind changed (fun t => Optcon.getSolution t)
     = bind changed_backend (fun b' => Optcon.backend_getSolution b')
  /\ bind changed (fun t => Optcon.getStateTrajectory t)
     = bind changed_backend (fun b' => Optcon.backend_getStateTrajectory b')
  /\ bind changed (fun t => Optcon.getControlTrajectory t)
     = bind changed_backend (fun b' => Optcon.backend_getControlTrajectory b')
  /\ bind changed (fun t => Optcon.getTimeArray t)
     = bind changed_backend (fun b' => Optcon.backend_getTimeArray b')
  /\ bind changed (fun t => Optcon.getTimeHorizon t)
     = bind changed_backend (fun b' => Optcon.backend_getTimeHorizon b')
  /\ bind changed (fun t => Optcon.getCost t)
     = bind changed_backend (fun b' => Optcon.backend_getCost b').
Proof.
move=> this changed changed_backend.
split; first exact: in_turn_on_solver.
by do !split; exact: read_after_changes.
Qed.

(** X6.  A solver as its constructor leaves it has a null [nlocBackend_]:
    each of the six accessors and each of the five [change...] methods
    dereferences it, so every one of these calls is undefined until a
    subclass has set the pointer, and so is any sequence of changes. *)
Theorem solver_without_backend_is_undefined
  (Policy_t SCALAR StateTrajectory ControlTrajectory TimeArray : Type)
  (StateVector CostFunctionPtr_t DynamicsPtr_t LinearPtr_t B S : Type)
  (backend : Optcon.NLOCBackendBase Policy_t SCALAR StateTrajectory
                                    ControlTrajectory TimeArray B)
  (changes : Mutators.NLOCBackendChanges SCALAR StateVector CostFunctionPtr_t
                                         DynamicsPtr_t LinearPtr_t B)
  (s : S) :
  let this := Mutators.NLOptConSolver_ctor B s in
  [/\ Optcon.getSolution this = Undefined,
      Optcon.getStateTrajectory this = Undefined,
      Optcon.getControlTrajectory this = Undefined,
      Optcon.getTimeArray this = Undefined
    & Optcon.getTimeHorizon this = Undefined]
  /\ Optcon.getCost this = Undefined
  /\ (forall (tf : SCALAR) (x0 : StateVector) (cf : CostFunctionPtr_t)
             (dyn : DynamicsPtr_t) (lin : LinearPtr_t),
        [/\ Mutators.changeTimeHorizon tf this = Undefined,
            Mutators.changeInitialState x0 this = Undefined,
            Mutators.changeCostFunction cf this = Undefined,
            Mutators.changeNonlinearSystem dyn this = Undefined
          & Mutators.changeLinearSystem lin this = Undefined])
  /\ (forall c cs,
        Mutators.in_turn Mutators.on_solver (c :: cs) this = Undefined).
Proof.
move=> this; do !split=> //.
by move=> c cs; apply: in_turn_on_null.
Qed.

(** * Sequences of calls on a [Sensitivity] *)

Section CallsFacts.

Import Core Calls.

Variable SCALAR : Type.
Variables (STATE_DIM CONTROL_DIM : nat) (D : Type).

Implicit Types (mem : memory SCALAR STATE_DIM CONTROL_DIM) (this : Sensitivity D).
Implicit Types (rs : seq request).

Lemma perform_all_result rs mem this :
  perform_all rs mem this
  = Returns (mem,
             {| xSubstep_ := (lastReferences rs (xSubstep_ this, uSubstep_ this)).1;
                uSubstep_ := (lastReferences rs (xSubstep_ this, uSubstep_ this)).2;
                derived := derived this |}).
Proof.
elim: rs this => [|[xSubstep uSubstep|approx] rs IH] this /=.
- by case: this.
- by rewrite IH.
- by rewrite IH.
Qed.

(** A later [setSubstepTrajectoryReference] overrides what came before. *)
Lemma lastReferences_override rs xSubstep uSubstep (rs' : seq request) refs :
  lastReferences (rs ++ SetSubstepTrajectoryReference xSubstep uSubstep :: rs') refs
  = lastReferences rs' (xSubstep, uSubstep).
Proof. by elim: rs refs => [|[x u|a] rs IH] refs /=. Qed.

Lemma lastReferences_setApproximation (approxs : seq APPROXIMATION) refs :
  lastReferences [seq SetApproximation a | a <- approxs] refs = refs.
Proof. by elim: approxs. Qed.

End CallsFacts.

(** X7.  Any sequence of [setSubstepTrajectoryReference] and
    [setApproximation] calls returns; it leaves the memory and the members
    of the subclass as they were, and the two substep references are those
    of the last [setSubstepTrajectoryReference] of the sequence (the ones
    before the sequence if it has none: after the constructor, null); and
    [clone] throws after it as before. *)
Theorem setters_in_sequence
  (SCALAR : Type) (STATE_DIM CONTROL_DIM : nat) (D : Type)
  (rs : seq Calls.request) (mem : Core.memory SCALAR STATE_DIM CONTROL_DIM)
  (this : Core.Sensitivity D) :
  let refs := Calls.lastReferences rs (Core.xSubstep_ this, Core.uSubstep_ this) in
  let this' := {| Core.xSubstep_ := refs.1; Core.uSubstep_ := refs.2;
                  Core.derived := Core.derived this |} in
  [/\ Calls.perform_all rs mem this = Returns (mem, this'),
      (forall xSubstep uSubstep rs',
         Calls.lastReferences
           (rs ++ Calls.SetSubstepTrajectoryReference xSubstep uSubstep :: rs')
           (Core.xSubstep_ this, Core.uSubstep_ this)
         = Calls.lastReferences rs' (xSubstep, uSubstep)),
      (forall approxs : seq Core.APPROXIMATION,
         Calls.perform_all [seq Calls.SetApproximation a | a <- approxs] mem this
         = Returns (mem, this))
    & bind (Calls.perform_all rs mem this) (fun res => Core.clone res.1 res.2)
      = Throws (runtime_error "clone not implemented for Sensitivity")].
Proof.
move=> refs this'; split.
- exact: perform_all_result.
- by move=> xSubstep uSubstep rs'; apply: lastReferences_override.
- move=> approxs; rewrite perform_all_result lastReferences_setApproximation.
  by case: (this).
- by rewrite perform_all_result.
Qed.
